(** * Parameter penalties (mlp/penalties.py)

    A shallow embedding of the three regularisation penalties of
    [mlp/penalties.py] -- [L1Penalty], [L2Penalty] and [L1L2MixPenalty] --
    together with the fragment of numpy they call: elementwise [abs],
    [sign], [**2], scalar-times-array, array-plus-array and the full
    reduction [sum].  The [__repr__] methods are in [Module Repr], with the
    printing of a coefficient as a parameter.  The module-level random
    state is left out: no method reads it.

    Numbers.  The methods are dtype-polymorphic (duck typed); the embedding
    is polymorphic over an interface [Dtype] listing the scalar operations
    the source uses.  Two instances are given:
    - [R], exact real arithmetic.  The data model of the specification is
      "an n-dimensional array of real numbers"; the properties that depend
      on the ordered-field laws (signs, non-negativity, vanishing) are
      settled at this instance.  Rounding, overflow, underflow and NaN of
      machine numbers are outside it.
    - [float], IEEE-754 binary64 (numpy's [float64]) through Rocq's
      primitive floats, which evaluates.  It is used for the concrete
      scenario, whose numbers are all exactly representable.
    Properties of the program's structure alone are stated for every
    instance.

    Arrays.  An [ndarray] is a shape and a flat, row-major data buffer, as
    in numpy.

    Objects and effects.  The first part of the file gives the methods as
    functions of the object's fields and the array's contents.  The second
    part ([Module Heap]) gives them again as programs over a store of Python
    objects, where every numpy call reads its operand and allocates its
    result, and relates the two.

    An [assert] is modelled as executed, that is, the interpreter is not
    run with assertions stripped. *)

From Stdlib Require Import Reals Lra Floats Ascii String DecimalString DecimalZ.
From stdpp Require Import base list gmap.

(** ** Exceptions and results *)

Inductive exn : Type :=
  | AssertionError (msg : string)
  | ValueError (msg : string)
  | TypeError (msg : string).

Inductive result (A : Type) : Type :=
  | Ok (a : A)
  | Raise (e : exn).
Arguments Ok {A} a.
Arguments Raise {A} e.

(** ** Scalars: the operations the source applies to numbers *)

Class Dtype (T : Type) : Type := {
  zero : T;                 (* the literal [0.0] *)
  half : T;                 (* the literal [0.5] *)
  add : T -> T -> T;        (* [x + y] *)
  mul : T -> T -> T;        (* [x * y] *)
  absolute : T -> T;        (* [np.abs] on one element *)
  sign : T -> T;            (* [np.sign] on one element *)
  gt : T -> T -> bool       (* [x > y] *)
}.

(** numpy evaluates [x ** 2] by squaring. *)
Definition square {T} `{Dtype T} (x : T) : T := mul x x.

(** *** Exact reals *)

Definition Rgtb (x y : R) : bool := if Rlt_dec y x then true else false.

(** [np.sign]: [1] for positive, [-1] for negative, [0] for zero. *)
Definition Rsign (x : R) : R :=
  if Rlt_dec 0 x then 1%R else if Rlt_dec x 0 then (-1)%R else 0%R.

#[export] Instance R_Dtype : Dtype R := {|
  zero := 0%R;
  half := 0.5%R;
  add := Rplus;
  mul := Rmult;
  absolute := Rabs;
  sign := Rsign;
  gt := Rgtb
|}.

(** *** binary64 *)

(** numpy's loop for floating [sign]:
    [x > 0 ? 1 : (x < 0 ? -1 : (x == 0 ? 0 : x))]; the last branch returns
    a NaN operand unchanged. *)
Definition fsign (x : float) : float :=
  if PrimFloat.ltb 0%float x then 1%float
  else if PrimFloat.ltb x 0%float then (-1)%float
  else if PrimFloat.eqb x 0%float then 0%float
  else x.

#[export] Instance float_Dtype : Dtype float := {|
  zero := 0%float;
  half := 0.5%float;
  add := PrimFloat.add;
  mul := PrimFloat.mul;
  absolute := PrimFloat.abs;
  sign := fsign;
  gt := fun x y => PrimFloat.ltb y x
|}.

(** ** Arrays *)

Record ndarray (T : Type) : Type := NDArray {
  shape : list nat;
  data : list T
}.
Arguments NDArray {T} shape data.
Arguments shape {T} n.
Arguments data {T} n.

(** A buffer holds exactly the product of the dimensions. *)
Definition well_shaped {T} (a : ndarray T) : Prop :=
  length (data a) = foldr Nat.mul 1%nat (shape a).

Section Numpy.
Context {T : Type} `{Dtype T}.

(** An elementwise operation keeps the shape and maps the buffer. *)
Definition elementwise (f : T -> T) (a : ndarray T) : ndarray T :=
  NDArray (shape a) (f <$> data a).

Definition np_abs : ndarray T -> ndarray T := elementwise absolute.
Definition np_sign : ndarray T -> ndarray T := elementwise sign.
(** [a ** 2] *)
Definition np_square : ndarray T -> ndarray T := elementwise square.
(** [c * a] for a scalar [c]: the scalar is broadcast to every element. *)
Definition scalar_mul (c : T) : ndarray T -> ndarray T := elementwise (mul c).

(** [np.sum(a)] with no axis: all elements, accumulated from zero in
    buffer order. *)
Definition np_sum (a : ndarray T) : T := fold_left add (data a) zero.

(** [a + b] on arrays.  Equal shapes add element by element.  For
    unequal shapes numpy either broadcasts or raises [ValueError]; only
    the latter is modelled, and no method below reaches that branch (both
    operands are elementwise images of the same parameter). *)
Definition np_add (a b : ndarray T) : result (ndarray T) :=
  if decide (shape a = shape b)
  then Ok (NDArray (shape a) (zip_with add (data a) (data b)))
  else Raise (ValueError "operands could not be broadcast together").
End Numpy.

(** ** The penalty classes *)

Module L1Penalty.
Section Defs.
Context {T : Type} `{Dtype T}.

Record t : Type := Build { coefficient : T }.

(** [assert coefficient > 0.0, "..."; self.coefficient = coefficient] *)
Definition __init__ (coefficient : T) : result t :=
  if gt coefficient zero
  then Ok (Build coefficient)
  else Raise (AssertionError "Penalty coefficient must be positive.").

(** [self.coefficient * np.sum(np.abs(parameter))] *)
Definition __call__ (self : t) (parameter : ndarray T) : T :=
  mul (coefficient self) (np_sum (np_abs parameter)).

(** [self.coefficient * np.sign(parameter)] *)
Definition grad (self : t) (parameter : ndarray T) : ndarray T :=
  scalar_mul (coefficient self) (np_sign parameter).
End Defs.
Arguments t T : clear implicits.
End L1Penalty.

Module L2Penalty.
Section Defs.
Context {T : Type} `{Dtype T}.

Record t : Type := Build { coefficient : T }.

Definition __init__ (coefficient : T) : result t :=
  if gt coefficient zero
  then Ok (Build coefficient)
  else Raise (AssertionError "Penalty coefficient must be positive.").

(** [0.5 * self.coefficient * np.sum(parameter**2)] *)
Definition __call__ (self : t) (parameter : ndarray T) : T :=
  mul (mul half (coefficient self)) (np_sum (np_square parameter)).

(** [self.coefficient * parameter] *)
Definition grad (self : t) (parameter : ndarray T) : ndarray T :=
  scalar_mul (coefficient self) parameter.
End Defs.
Arguments t T : clear implicits.
End L2Penalty.

Module L1L2MixPenalty.
Section Defs.
Context {T : Type} `{Dtype T}.

Record t : Type := Build { l1_coefficient : T; l2_coefficient : T }.

(** Two plain assignments; no assertion. *)
Definition __init__ (l1_coefficient l2_coefficient : T) : result t :=
  Ok (Build l1_coefficient l2_coefficient).

Definition __call__ (self : t) (parameter : ndarray T) : T :=
  let l1_penalty := mul (l1_coefficient self) (np_sum (np_abs parameter)) in
  let l2_penalty :=
    mul (mul half (l2_coefficient self)) (np_sum (np_square parameter)) in
  add l1_penalty l2_penalty.

Definition grad (self : t) (parameter : ndarray T) : result (ndarray T) :=
  let l1_grad := scalar_mul (l1_coefficient self) (np_sign parameter) in
  let l2_grad := scalar_mul (l2_coefficient self) parameter in
  np_add l1_grad l2_grad.
End Defs.
Arguments t T : clear implicits.
End L1L2MixPenalty.

(** ** Vocabulary of the specification *)

(** The sum of a list of reals, as the specification writes it. *)
Definition Rsum (l : list R) : R := foldr Rplus 0%R l.


(** * The methods over a store of Python objects

    Arrays and penalty objects live in a store and are passed by reference.
    A numpy call reads its operand from the store and allocates its result
    at a fresh address; an attribute read looks the object up.  The six
    methods are written against these operations, statement by statement. *)

Module Heap.
Inductive pyobj (T : Type) : Type :=
  | PyArray (a : ndarray T)
  | PyL1 (o : L1Penalty.t T)
  | PyL2 (o : L2Penalty.t T)
  | PyMix (o : L1L2MixPenalty.t T).
Arguments PyArray {T} a.
Arguments PyL1 {T} o.
Arguments PyL2 {T} o.
Arguments PyMix {T} o.

(** A computation over the store: it raises, or returns a value and the
    store it leaves. *)
Definition M (T A : Type) : Type :=
  gmap positive (pyobj T) -> result (A * gmap positive (pyobj T)).

Section Defs.
Context {T : Type} `{Dtype T}.

Definition ret {A : Type} (a : A) : M T A := fun h => Ok (a, h).

Definition bind {A B : Type} (m : M T A) (f : A -> M T B) : M T B :=
  fun h =>
    match m h with
    | Ok (a, h') => f a h'
    | Raise e => Raise e
    end.

Definition raise {A : Type} (e : exn) : M T A := fun _ => Raise e.

Local Notation "x <~ m ;; k" := (bind m (fun x => k))
  (at level 100, m at level 99, right associativity).

(** Allocation of a new object. *)
Definition new (o : pyobj T) : M T positive :=
  fun h => let r := fresh (dom h) in Ok (r, <[r := o]> h).

(** Reading the array behind a reference. *)
Definition load (r : positive) : M T (ndarray T) :=
  fun h =>
    match h !! r with
    | Some (PyArray a) => Ok (a, h)
    | _ => Raise (TypeError "not an array")
    end.

(** Attribute reads. *)
Definition L1_coefficient (self : positive) : M T T :=
  fun h =>
    match h !! self with
    | Some (PyL1 o) => Ok (L1Penalty.coefficient o, h)
    | _ => Raise (TypeError "not an L1Penalty")
    end.

Definition L2_coefficient (self : positive) : M T T :=
  fun h =>
    match h !! self with
    | Some (PyL2 o) => Ok (L2Penalty.coefficient o, h)
    | _ => Raise (TypeError "not an L2Penalty")
    end.

Definition Mix_l1_coefficient (self : positive) : M T T :=
  fun h =>
    match h !! self with
    | Some (PyMix o) => Ok (L1L2MixPenalty.l1_coefficient o, h)
    | _ => Raise (TypeError "not an L1L2MixPenalty")
    end.

Definition Mix_l2_coefficient (self : positive) : M T T :=
  fun h =>
    match h !! self with
    | Some (PyMix o) => Ok (L1L2MixPenalty.l2_coefficient o, h)
    | _ => Raise (TypeError "not an L1L2MixPenalty")
    end.

(** numpy on references: the operand is read, the result is new. *)
Definition h_elementwise (f : T -> T) (r : positive) : M T positive :=
  a <~ load r ;; new (PyArray (elementwise f a)).

Definition h_abs : positive -> M T positive := h_elementwise absolute.
Definition h_sign : positive -> M T positive := h_elementwise sign.
Definition h_square : positive -> M T positive := h_elementwise square.
Definition h_scalar_mul (c : T) : positive -> M T positive :=
  h_elementwise (mul c).

Definition h_sum (r : positive) : M T T :=
  a <~ load r ;; ret (np_sum a).

Definition h_add (r1 r2 : positive) : M T positive :=
  a <~ load r1 ;;
  b <~ load r2 ;;
  match np_add a b with
  | Ok c => new (PyArray c)
  | Raise e => raise e
  end.

(** [L1Penalty.__call__] *)
Definition L1Penalty_call (self parameter : positive) : M T T :=
  c <~ L1_coefficient self ;;
  t <~ h_abs parameter ;;
  s <~ h_sum t ;;
  ret (mul c s).

(** [L1Penalty.grad] *)
Definition L1Penalty_grad (self parameter : positive) : M T positive :=
  c <~ L1_coefficient self ;;
  t <~ h_sign parameter ;;
  h_scalar_mul c t.

(** [L2Penalty.__call__] *)
Definition L2Penalty_call (self parameter : positive) : M T T :=
  c <~ L2_coefficient self ;;
  t <~ h_square parameter ;;
  s <~ h_sum t ;;
  ret (mul (mul half c) s).

(** [L2Penalty.grad] *)
Definition L2Penalty_grad (self parameter : positive) : M T positive :=
  c <~ L2_coefficient self ;;
  h_scalar_mul c parameter.

(** [L1L2MixPenalty.__call__] *)
Definition L1L2MixPenalty_call (self parameter : positive) : M T T :=
  c1 <~ Mix_l1_coefficient self ;;
  t1 <~ h_abs parameter ;;
  s1 <~ h_sum t1 ;;
  let l1_penalty := mul c1 s1 in
  c2 <~ Mix_l2_coefficient self ;;
  t2 <~ h_square parameter ;;
  s2 <~ h_sum t2 ;;
  let l2_penalty := mul (mul half c2) s2 in
  ret (add l1_penalty l2_penalty).

(** [L1L2MixPenalty.grad] *)
Definition L1L2MixPenalty_grad (self parameter : positive) : M T positive :=
  c1 <~ Mix_l1_coefficient self ;;
  t <~ h_sign parameter ;;
  l1_grad <~ h_scalar_mul c1 t ;;
  c2 <~ Mix_l2_coefficient self ;;
  l2_grad <~ h_scalar_mul c2 parameter ;;
  h_add l1_grad l2_grad.

(** Every object of the store [h] is still there, unchanged, in [h']. *)
Definition preserved (h h' : gmap positive (pyobj T)) : Prop :=
  forall (r : positive) (o : pyobj T), h !! r = Some o -> h' !! r = Some o.

(** [m] run in [h] returns the scalar [v] and preserves [h]. *)
Definition returns {A : Type} (m : M T A) (h : gmap positive (pyobj T))
    (v : A) : Prop :=
  exists h', m h = Ok (v, h') /\ preserved h h'.

(** [m] run in [h] returns a reference to a new array with contents [a]
    and preserves [h]. *)
Definition returns_new (m : M T positive) (h : gmap positive (pyobj T))
    (a : ndarray T) : Prop :=
  exists r h',
    m h = Ok (r, h') /\ preserved h h' /\
    h !! r = None /\ h' !! r = Some (PyArray a).
End Defs.
End Heap.

(** * Descriptions: the [__repr__] methods

    ["...{0}...".format(x)] splices the text of [x] into the template.  How
    a coefficient is turned into text is Python's, not this module's: it is
    the parameter [str] here. *)

Module Repr.
Section Defs.
Context {T : Type} (str : T -> string).

(** ["L1Penalty({0})".format(self.coefficient)] *)
Definition L1Penalty_repr (self : L1Penalty.t T) : string :=
  ("L1Penalty(" ++ str (L1Penalty.coefficient self) ++ ")")%string.

(** ["L2Penalty({0})".format(self.coefficient)] *)
Definition L2Penalty_repr (self : L2Penalty.t T) : string :=
  ("L2Penalty(" ++ str (L2Penalty.coefficient self) ++ ")")%string.

(** ["L1L2MixPenalty(l1_coefficient={0}, l2_coefficient={1})".format(
      self.l1_coefficient, self.l2_coefficient)] *)
Definition L1L2MixPenalty_repr (self : L1L2MixPenalty.t T) : string :=
  ("L1L2MixPenalty(l1_coefficient="
   ++ str (L1L2MixPenalty.l1_coefficient self)
   ++ ", l2_coefficient="
   ++ str (L1L2MixPenalty.l2_coefficient self)
   ++ ")")%string.
End Defs.

(** The text of a Python [int]: decimal digits, with a leading minus sign
    for a negative number. *)
Definition str_int (z : Z) : string := NilEmpty.string_of_int (Z.to_int z).

(** [has_comma s]: the character [,] occurs in [s]. *)
Fixpoint has_comma (s : string) : bool :=
  match s with
  | EmptyString => false
  | String a s' => Ascii.eqb a ","%char || has_comma s'
  end.
End Repr.

(** * Vocabulary for the gradient properties *)

(** The inner product of two buffers. *)
Definition dot (u v : list R) : R := Rsum (zip_with Rmult u v).

(** A store for examples: an [L1Penalty(0.5)], an [L2Penalty(0.5)], an
    [L1L2MixPenalty(0.5, 0.5)] and the array [[-2, 0, 3]], in binary64. *)
Definition example_array : ndarray float := NDArray [3] [-2; 0; 3]%float.

Definition example_store : gmap positive (Heap.pyobj float) :=
  <[1%positive := Heap.PyL1 (L1Penalty.Build 0.5%float)]>
    (<[2%positive := Heap.PyL2 (L2Penalty.Build 0.5%float)]>
       (<[3%positive := Heap.PyMix (L1L2MixPenalty.Build 0.5%float 0.5%float)]>
          (<[4%positive := Heap.PyArray example_array]> ∅))).

(** Arrays for examples in exact arithmetic: a parameter, a step, their
    sum, the parameter transposed as a 3-by-1 array, and the gradient of
    [L1L2MixPenalty(0.5, 0.5)] at the parameter. *)
Definition example_parameter : ndarray R := NDArray [3] [-2; 0; 3]%R.

Definition example_step : ndarray R := NDArray [3] [1; 1; 1]%R.

Definition example_sum : ndarray R :=
  NDArray [3] [-2 + 1; 0 + 1; 3 + 1]%R.

Definition example_reordered : ndarray R := NDArray [3; 1] [0; -2; 3]%R.

Definition example_mix_grad : ndarray R :=
  NDArray [3]
    [0.5 * Rsign (-2) + 0.5 * (-2); 0.5 * Rsign 0 + 0.5 * 0;
     0.5 * Rsign 3 + 0.5 * 3]%R.

(** * Properties in exact arithmetic *)

Section RealFacts.
Local Open Scope R_scope.

Lemma fold_left_Rplus (l : list R) (a : R) :
  fold_left Rplus l a = a + Rsum l.
Proof.
  revert a; induction l as [|x l IH]; intros a; simpl.
  - lra.
  - rewrite IH. unfold Rsum. simpl. lra.
Qed.

Lemma np_sum_Rsum (a : ndarray R) : np_sum a = Rsum (data a).
Proof. unfold np_sum. simpl. rewrite fold_left_Rplus. lra. Qed.

Lemma Rsum_cons (x : R) (l : list R) : Rsum (x :: l) = x + Rsum l.
Proof. reflexivity. Qed.

Lemma Rsum_abs_nonneg (l : list R) : 0 <= Rsum (Rabs <$> l).
Proof.
  induction l as [|x l IH]; [simpl; lra|].
  rewrite fmap_cons, Rsum_cons. pose proof (Rabs_pos x). lra.
Qed.

Lemma Rsum_abs_zero (l : list R) :
  Rsum (Rabs <$> l) = 0 <-> Forall (fun x => x = 0) l.
Proof.
  induction l as [|x l IH].
  - split; [constructor | reflexivity].
  - pose proof (Rabs_pos x) as Hx.
    pose proof (Rsum_abs_nonneg l) as Hl.
    rewrite fmap_cons, Rsum_cons.
    split.
    + intros Hs. constructor.
      * destruct (Req_dec x 0) as [|Hne]; [assumption|].
        apply Rabs_pos_lt in Hne. lra.
      * apply IH. lra.
    + intros Hall. inversion Hall as [|? ? Hx0 Hl0]; subst.
      apply IH in Hl0. rewrite Rabs_R0. lra.
Qed.

Lemma Rsum_square_nonneg (l : list R) : 0 <= Rsum ((fun x => x * x) <$> l).
Proof.
  induction l as [|x l IH]; [simpl; lra|].
  rewrite fmap_cons, Rsum_cons. nra.
Qed.

Lemma Rsum_square_zero (l : list R) :
  Rsum ((fun x => x * x) <$> l) = 0 <-> Forall (fun x => x = 0) l.
Proof.
  induction l as [|x l IH].
  - split; [constructor | reflexivity].
  - pose proof (Rsum_square_nonneg l) as Hl.
    rewrite fmap_cons, Rsum_cons.
    split.
    + intros Hs. constructor.
      * nra.
      * apply IH. nra.
    + intros Hall. inversion Hall as [|? ? Hx0 Hl0]; subst.
      apply IH in Hl0. lra.
Qed.

Lemma Rgtb_true (x y : R) : Rgtb x y = true <-> y < x.
Proof. unfold Rgtb. destruct (Rlt_dec y x); split; (congruence || lra || auto). Qed.


Lemma Rsign_pos (x : R) : 0 < x -> Rsign x = 1.
Proof. intros. unfold Rsign. destruct (Rlt_dec 0 x); [reflexivity | lra]. Qed.

Lemma Rsign_neg (x : R) : x < 0 -> Rsign x = -1.
Proof.
  intros. unfold Rsign.
  destruct (Rlt_dec 0 x); [lra|]. destruct (Rlt_dec x 0); [reflexivity | lra].
Qed.

Lemma Rsign_zero : Rsign 0 = 0.
Proof.
  unfold Rsign.
  destruct (Rlt_dec 0 0); [lra|]. destruct (Rlt_dec 0 0); [lra | reflexivity].
Qed.

Lemma L1_init_pos (c : R) :
  0 < c -> L1Penalty.__init__ c = Ok (L1Penalty.Build c).
Proof.
  intros Hc. unfold L1Penalty.__init__. simpl.
  apply Rgtb_true in Hc. rewrite Hc. reflexivity.
Qed.

Lemma L2_init_pos (c : R) :
  0 < c -> L2Penalty.__init__ c = Ok (L2Penalty.Build c).
Proof.
  intros Hc. unfold L2Penalty.__init__. simpl.
  apply Rgtb_true in Hc. rewrite Hc. reflexivity.
Qed.
End RealFacts.

Section SingleTermPenalties.
Local Open Scope R_scope.

Lemma L1_call_unfold (c : R) (A : ndarray R) :
  L1Penalty.__call__ (L1Penalty.Build c) A = c * Rsum (Rabs <$> data A).
Proof. unfold L1Penalty.__call__. rewrite np_sum_Rsum. reflexivity. Qed.

Lemma L2_call_unfold (c : R) (A : ndarray R) :
  L2Penalty.__call__ (L2Penalty.Build c) A
  = 0.5 * c * Rsum ((fun x => x * x) <$> data A).
Proof. unfold L2Penalty.__call__. rewrite np_sum_Rsum. reflexivity. Qed.






End SingleTermPenalties.

(** ** The same methods on binary64 arrays

    The methods run on machine numbers, where a product can underflow to
    zero and [inf * 0] is NaN.  The two lemmas below evaluate the methods
    at the [float] instance; [PrimFloat.eqb x 0] is Python's [x == 0] and
    [PrimFloat.leb 0 x] is [x >= 0]. *)



(** * Construction *)

Section Construction.
Local Open Scope R_scope.




End Construction.

Section MixConstruction.
Context {T : Type} `{Dtype T}.

(** C6.  For every pair of coefficients, whatever their sign,
    [L1L2MixPenalty(c1, c2)] returns an object holding the two values as
    given: the constructor has no raising branch. *)
Theorem Mix_init_always_succeeds (c1 c2 : T) :
  exists m, L1L2MixPenalty.__init__ c1 c2 = Ok m /\
    L1L2MixPenalty.l1_coefficient m = c1 /\
    L1L2MixPenalty.l2_coefficient m = c2.
Proof. eexists. split; [reflexivity|]. split; reflexivity. Qed.
End MixConstruction.

(** Zero and negative coefficients, which the single-term constructors
    reject, are accepted by the mix. *)
Example Mix_init_nonpositive :
  L1L2MixPenalty.__init__ 0%R (-1)%R = Ok (L1L2MixPenalty.Build 0%R (-1)%R) /\
  L1L2MixPenalty.__init__ (-1)%float 0%float
  = Ok (L1L2MixPenalty.Build (-1)%float 0%float) /\
  L1Penalty.__init__ 0%float
  = Raise (AssertionError "Penalty coefficient must be positive.") /\
  L2Penalty.__init__ (-1)%float
  = Raise (AssertionError "Penalty coefficient must be positive.").
Proof. repeat split. Qed.

(** * Properties that hold at every dtype

    The statements of this part use no fact about the numbers: they hold
    for the exact reals and for binary64 alike.  A coefficient [c > 0] is
    one on which the constructors' test [c > 0.0] evaluates to true. *)

Section AnyDtype.
Context {T : Type} `{Dtype T}.

Lemma L1_init_gt (c : T) :
  gt c zero = true -> L1Penalty.__init__ c = Ok (L1Penalty.Build c).
Proof. intros Hc. unfold L1Penalty.__init__. rewrite Hc. reflexivity. Qed.

Lemma L2_init_gt (c : T) :
  gt c zero = true -> L2Penalty.__init__ c = Ok (L2Penalty.Build c).
Proof. intros Hc. unfold L2Penalty.__init__. rewrite Hc. reflexivity. Qed.

Lemma elementwise_shape (f : T -> T) (a : ndarray T) :
  shape (elementwise f a) = shape a.
Proof. reflexivity. Qed.

Lemma elementwise_length (f : T -> T) (a : ndarray T) :
  length (data (elementwise f a)) = length (data a).
Proof. unfold elementwise. simpl. apply length_fmap. Qed.

(** Elementwise calls, hence all three gradients, keep buffers in step
    with their shapes. *)
Lemma elementwise_well_shaped (f : T -> T) (a : ndarray T) :
  well_shaped a -> well_shaped (elementwise f a).
Proof.
  unfold well_shaped. rewrite elementwise_length, elementwise_shape. trivial.
Qed.

(** Adding two arrays of one shape succeeds. *)
Lemma np_add_same_shape (a b : ndarray T) :
  shape a = shape b ->
  np_add a b = Ok (NDArray (shape a) (zip_with add (data a) (data b))).
Proof.
  intros Hs. unfold np_add. destruct (decide (shape a = shape b)); [reflexivity|].
  contradiction.
Qed.

(** The two operands of the sum in [L1L2MixPenalty.grad] have the shape of
    the parameter, so the sum never takes the raising branch. *)
Lemma Mix_grad_ok (m : L1L2MixPenalty.t T) (A : ndarray T) :
  L1L2MixPenalty.grad m A
  = Ok (NDArray (shape A)
          (zip_with add
             (mul (L1L2MixPenalty.l1_coefficient m) <$> (sign <$> data A))
             (mul (L1L2MixPenalty.l2_coefficient m) <$> data A))).
Proof.
  unfold L1L2MixPenalty.grad. cbv zeta.
  rewrite np_add_same_shape by reflexivity. reflexivity.
Qed.

(** C4.  For every coefficient [c > 0] and every array [A], the gradient
    of [L2Penalty(c)] at [A] has the shape of [A] and as many elements,
    and its element at each position is exactly the product of [c] and
    the element of [A] there. *)
Theorem L2_grad (c : T) (A : ndarray T) :
  gt c zero = true ->
  exists p, L2Penalty.__init__ c = Ok p /\
    shape (L2Penalty.grad p A) = shape A /\
    length (data (L2Penalty.grad p A)) = length (data A) /\
    forall (i : nat) (x : T), data A !! i = Some x ->
      data (L2Penalty.grad p A) !! i = Some (mul c x).
Proof.
  intros Hc. exists (L2Penalty.Build c).
  split; [apply L2_init_gt, Hc|].
  unfold L2Penalty.grad, scalar_mul, elementwise. simpl.
  split; [reflexivity|]. split; [apply length_fmap|].
  intros i x Hx. rewrite list_lookup_fmap, Hx. reflexivity.
Qed.

(** C7.  For all coefficients [c1 > 0] and [c2 > 0] and every array [A],
    the three constructions succeed and the value of
    [L1L2MixPenalty(c1, c2)] at [A] is the sum of the value of
    [L1Penalty(c1)] at [A] and the value of [L2Penalty(c2)] at [A]. *)
Theorem Mix_value_is_sum (c1 c2 : T) (A : ndarray T) :
  gt c1 zero = true -> gt c2 zero = true ->
  exists m p1 p2,
    L1L2MixPenalty.__init__ c1 c2 = Ok m /\
    L1Penalty.__init__ c1 = Ok p1 /\
    L2Penalty.__init__ c2 = Ok p2 /\
    L1L2MixPenalty.__call__ m A
    = add (L1Penalty.__call__ p1 A) (L2Penalty.__call__ p2 A).
Proof.
  intros H1 H2.
  exists (L1L2MixPenalty.Build c1 c2), (L1Penalty.Build c1), (L2Penalty.Build c2).
  split; [reflexivity|].
  split; [apply L1_init_gt, H1|].
  split; [apply L2_init_gt, H2|].
  reflexivity.
Qed.

(** C10.  For all coefficients [c1 > 0] and [c2 > 0] and every array [A],
    the gradient of [L1L2MixPenalty(c1, c2)] at [A] is the array sum of
    the gradient of [L1Penalty(c1)] and the gradient of [L2Penalty(c2)] at
    [A]: it has the shape of [A], and its element at each position is the
    sum of the two single-term gradients' elements there. *)
Theorem Mix_grad_is_sum (c1 c2 : T) (A : ndarray T) :
  gt c1 zero = true -> gt c2 zero = true ->
  exists m p1 p2 g,
    L1L2MixPenalty.__init__ c1 c2 = Ok m /\
    L1Penalty.__init__ c1 = Ok p1 /\
    L2Penalty.__init__ c2 = Ok p2 /\
    L1L2MixPenalty.grad m A = Ok g /\
    np_add (L1Penalty.grad p1 A) (L2Penalty.grad p2 A) = Ok g /\
    shape g = shape A /\
    length (data g) = length (data A) /\
    forall i : nat, (i < length (data A))%nat ->
      exists g1 g2,
        data (L1Penalty.grad p1 A) !! i = Some g1 /\
        data (L2Penalty.grad p2 A) !! i = Some g2 /\
        data g !! i = Some (add g1 g2).
Proof.
  intros H1 H2.
  exists (L1L2MixPenalty.Build c1 c2), (L1Penalty.Build c1), (L2Penalty.Build c2).
  eexists.
  split; [reflexivity|].
  split; [apply L1_init_gt, H1|].
  split; [apply L2_init_gt, H2|].
  split; [apply Mix_grad_ok|].
  split; [apply np_add_same_shape; reflexivity|].
  simpl. split; [reflexivity|].
  split.
  - rewrite length_zip_with, !length_fmap. apply Nat.min_id.
  - intros i Hi.
    destruct (lookup_lt_is_Some_2 (data A) i Hi) as [x Hx].
    exists (mul c1 (sign x)), (mul c2 x).
    rewrite lookup_zip_with, !list_lookup_fmap, Hx.
    repeat split.
Qed.
End AnyDtype.

Lemma L2_grad_witness :
  gt 0.5%R zero = true /\
  exists p, L2Penalty.__init__ 0.5%R = Ok p /\
    shape (L2Penalty.grad p (NDArray [3] [-2; 0; 3]%R)) = [3] /\
    length (data (L2Penalty.grad p (NDArray [3] [-2; 0; 3]%R))) = 3 /\
    forall (i : nat) (x : R), [-2; 0; 3]%R !! i = Some x ->
      data (L2Penalty.grad p (NDArray [3] [-2; 0; 3]%R)) !! i
      = Some (0.5 * x)%R.
Proof.
  assert (Hc : gt 0.5%R zero = true) by (apply (Rgtb_true 0.5 0); lra).
  split; [exact Hc|].
  apply (L2_grad 0.5%R (NDArray [3] [-2; 0; 3]%R) Hc).
Defined.

Lemma Mix_value_is_sum_witness :
  gt 0.5%float zero = true /\ gt 0.25%float zero = true /\
  exists m p1 p2,
    L1L2MixPenalty.__init__ 0.5%float 0.25%float = Ok m /\
    L1Penalty.__init__ 0.5%float = Ok p1 /\
    L2Penalty.__init__ 0.25%float = Ok p2 /\
    L1L2MixPenalty.__call__ m (NDArray [2; 2] [1; -2; 0; 4]%float)
    = add (L1Penalty.__call__ p1 (NDArray [2; 2] [1; -2; 0; 4]%float))
          (L2Penalty.__call__ p2 (NDArray [2; 2] [1; -2; 0; 4]%float)).
Proof.
  split; [reflexivity|]. split; [reflexivity|].
  apply (Mix_value_is_sum 0.5%float 0.25%float
           (NDArray [2; 2] [1; -2; 0; 4]%float)); reflexivity.
Defined.

Lemma Mix_grad_is_sum_witness :
  gt 0.5%float zero = true /\ gt 0.25%float zero = true /\
  exists m p1 p2 g,
    L1L2MixPenalty.__init__ 0.5%float 0.25%float = Ok m /\
    L1Penalty.__init__ 0.5%float = Ok p1 /\
    L2Penalty.__init__ 0.25%float = Ok p2 /\
    L1L2MixPenalty.grad m (NDArray [2; 2] [1; -2; 0; 4]%float) = Ok g /\
    np_add (L1Penalty.grad p1 (NDArray [2; 2] [1; -2; 0; 4]%float))
           (L2Penalty.grad p2 (NDArray [2; 2] [1; -2; 0; 4]%float)) = Ok g /\
    shape g = [2; 2] /\
    length (data g) = 4 /\
    forall i : nat, i < 4 ->
      exists g1 g2,
        data (L1Penalty.grad p1 (NDArray [2; 2] [1; -2; 0; 4]%float)) !! i
        = Some g1 /\
        data (L2Penalty.grad p2 (NDArray [2; 2] [1; -2; 0; 4]%float)) !! i
        = Some g2 /\
        data g !! i = Some (add g1 g2).
Proof.
  split; [reflexivity|]. split; [reflexivity|].
  apply (Mix_grad_is_sum 0.5%float 0.25%float
           (NDArray [2; 2] [1; -2; 0; 4]%float)); reflexivity.
Defined.

(** * The concrete scenario: [A = [-2, 0, 3]], coefficients [0.5] *)

Section Scenario.
Local Open Scope R_scope.

Lemma Rabs_neg2 : Rabs (-2) = 2.
Proof. rewrite Rabs_left by lra. lra. Qed.

Lemma Rabs_3 : Rabs 3 = 3.
Proof. apply Rabs_right. lra. Qed.

(** C8.  On [A = [-2, 0, 3]] with coefficient [0.5]: [L1Penalty] has value
    [2.5] and gradient [[-0.5, 0, 0.5]]; [L2Penalty] has value [3.25] and
    gradient [[-1, 0, 1.5]]; [L1L2MixPenalty(0.5, 0.5)] has value [5.75]
    and gradient [[-1.5, 0, 2.0]].  This holds in exact arithmetic and,
    bit for bit, in binary64. *)
Theorem concrete_scenario :
  (let A := NDArray [3%nat] [-2; 0; 3] in
   (exists p, L1Penalty.__init__ 0.5 = Ok p /\
      L1Penalty.__call__ p A = 2.5 /\
      L1Penalty.grad p A = NDArray [3%nat] [-0.5; 0; 0.5]) /\
   (exists p, L2Penalty.__init__ 0.5 = Ok p /\
      L2Penalty.__call__ p A = 3.25 /\
      L2Penalty.grad p A = NDArray [3%nat] [-1; 0; 1.5]) /\
   (exists m, L1L2MixPenalty.__init__ 0.5 0.5 = Ok m /\
      L1L2MixPenalty.__call__ m A = 5.75 /\
      L1L2MixPenalty.grad m A = Ok (NDArray [3%nat] [-1.5; 0; 2.0]))) /\
  (let A := NDArray [3%nat] [-2; 0; 3]%float in
   (exists p, L1Penalty.__init__ 0.5%float = Ok p /\
      L1Penalty.__call__ p A = 2.5%float /\
      L1Penalty.grad p A = NDArray [3%nat] [-0.5; 0; 0.5]%float) /\
   (exists p, L2Penalty.__init__ 0.5%float = Ok p /\
      L2Penalty.__call__ p A = 3.25%float /\
      L2Penalty.grad p A = NDArray [3%nat] [-1; 0; 1.5]%float) /\
   (exists m, L1L2MixPenalty.__init__ 0.5%float 0.5%float = Ok m /\
      L1L2MixPenalty.__call__ m A = 5.75%float /\
      L1L2MixPenalty.grad m A = Ok (NDArray [3%nat] [-1.5; 0; 2.0]%float))).
Proof.
  split; [|repeat split; eexists; repeat split; vm_compute; reflexivity].
  intros A.
  assert (Hs2 : Rsign (-2) = -1) by (apply Rsign_neg; lra).
  assert (Hs3 : Rsign 3 = 1) by (apply Rsign_pos; lra).
  pose proof Rsign_zero as Hs0.
  assert (Hl1 : Rsum (Rabs <$> data A) = 5).
  { unfold A, Rsum. simpl. rewrite Rabs_neg2, Rabs_R0, Rabs_3. lra. }
  assert (Hl2 : Rsum ((fun x => x * x) <$> data A) = 13).
  { unfold A, Rsum. simpl. lra. }
  split; [|split].
  - exists (L1Penalty.Build 0.5). split; [apply L1_init_pos; lra|]. split.
    + rewrite L1_call_unfold, Hl1. lra.
    + unfold L1Penalty.grad, scalar_mul, np_sign, elementwise, A. simpl.
      rewrite Hs2, Hs0, Hs3. repeat f_equal; lra.
  - exists (L2Penalty.Build 0.5). split; [apply L2_init_pos; lra|]. split.
    + rewrite L2_call_unfold, Hl2. lra.
    + unfold L2Penalty.grad, scalar_mul, elementwise, A. simpl.
      repeat f_equal; lra.
  - exists (L1L2MixPenalty.Build 0.5 0.5). split; [reflexivity|]. split.
    + change (L1L2MixPenalty.__call__ (L1L2MixPenalty.Build 0.5 0.5) A)
        with (L1Penalty.__call__ (L1Penalty.Build 0.5) A
              + L2Penalty.__call__ (L2Penalty.Build 0.5) A).
      rewrite L1_call_unfold, L2_call_unfold, Hl1, Hl2. lra.
    + rewrite Mix_grad_ok. unfold A. simpl.
      rewrite Hs2, Hs0, Hs3. repeat f_equal; lra.
Qed.
End Scenario.

(** * Calls leave the store as they found it *)

Section Frame.
Context {T : Type} `{Dtype T}.
Implicit Types (h : gmap positive (Heap.pyobj T)) (r : positive).

Lemma preserved_refl h : Heap.preserved h h.
Proof. intros r o Hr. exact Hr. Qed.

Lemma preserved_trans h1 h2 h3 :
  Heap.preserved h1 h2 -> Heap.preserved h2 h3 -> Heap.preserved h1 h3.
Proof. intros H12 H23 r o Hr. apply H23, H12, Hr. Qed.

Lemma preserved_insert_fresh h r (o : Heap.pyobj T) :
  h !! r = None -> Heap.preserved h (<[r := o]> h).
Proof.
  intros Hfresh r' o' Hr'.
  rewrite lookup_insert_ne; [exact Hr'|]. intros ->. congruence.
Qed.

Lemma bind_ok {A B : Type} (m : Heap.M T A) (f : A -> Heap.M T B) h a h' :
  m h = Ok (a, h') -> Heap.bind m f h = f a h'.
Proof. intros Hm. unfold Heap.bind. rewrite Hm. reflexivity. Qed.

(** Allocation returns an address that was free and writes only there. *)
Lemma new_ok h (o : Heap.pyobj T) :
  exists r, Heap.new o h = Ok (r, <[r := o]> h) /\ h !! r = None.
Proof.
  exists (fresh (dom h)). split; [reflexivity|].
  apply not_elem_of_dom, is_fresh.
Qed.

Lemma load_ok h r (a : ndarray T) :
  h !! r = Some (Heap.PyArray a) -> Heap.load r h = Ok (a, h).
Proof. intros Hr. unfold Heap.load. rewrite Hr. reflexivity. Qed.

(** An elementwise numpy call returns a new array and preserves the
    store. *)
Lemma h_elementwise_ok (f : T -> T) h r (a : ndarray T) :
  h !! r = Some (Heap.PyArray a) ->
  Heap.returns_new (Heap.h_elementwise f r) h (elementwise f a).
Proof.
  intros Hr.
  destruct (new_ok h (Heap.PyArray (elementwise f a))) as (r' & Hnew & Hfresh).
  exists r', (<[r' := Heap.PyArray (elementwise f a)]> h).
  split; [|split; [|split]].
  - unfold Heap.h_elementwise. rewrite (bind_ok _ _ _ _ _ (load_ok _ _ _ Hr)).
    exact Hnew.
  - apply preserved_insert_fresh, Hfresh.
  - exact Hfresh.
  - apply lookup_insert_eq.
Qed.

Lemma h_sum_ok h r (a : ndarray T) :
  h !! r = Some (Heap.PyArray a) -> Heap.h_sum r h = Ok (np_sum a, h).
Proof.
  intros Hr. unfold Heap.h_sum.
  rewrite (bind_ok _ _ _ _ _ (load_ok _ _ _ Hr)). reflexivity.
Qed.

Lemma h_add_ok h r1 r2 (a b c : ndarray T) :
  h !! r1 = Some (Heap.PyArray a) -> h !! r2 = Some (Heap.PyArray b) ->
  np_add a b = Ok c ->
  Heap.returns_new (Heap.h_add r1 r2) h c.
Proof.
  intros H1 H2 Hc.
  destruct (new_ok h (Heap.PyArray c)) as (r' & Hnew & Hfresh).
  exists r', (<[r' := Heap.PyArray c]> h).
  split; [|split; [|split]].
  - unfold Heap.h_add.
    rewrite (bind_ok _ _ _ _ _ (load_ok _ _ _ H1)).
    rewrite (bind_ok _ _ _ _ _ (load_ok _ _ _ H2)).
    rewrite Hc. exact Hnew.
  - apply preserved_insert_fresh, Hfresh.
  - exact Hfresh.
  - apply lookup_insert_eq.
Qed.

Lemma L1_coefficient_ok h r (o : L1Penalty.t T) :
  h !! r = Some (Heap.PyL1 o) ->
  Heap.L1_coefficient r h = Ok (L1Penalty.coefficient o, h).
Proof. intros Hr. unfold Heap.L1_coefficient. rewrite Hr. reflexivity. Qed.

Lemma L2_coefficient_ok h r (o : L2Penalty.t T) :
  h !! r = Some (Heap.PyL2 o) ->
  Heap.L2_coefficient r h = Ok (L2Penalty.coefficient o, h).
Proof. intros Hr. unfold Heap.L2_coefficient. rewrite Hr. reflexivity. Qed.

Lemma Mix_l1_coefficient_ok h r (o : L1L2MixPenalty.t T) :
  h !! r = Some (Heap.PyMix o) ->
  Heap.Mix_l1_coefficient r h = Ok (L1L2MixPenalty.l1_coefficient o, h).
Proof. intros Hr. unfold Heap.Mix_l1_coefficient. rewrite Hr. reflexivity. Qed.

Lemma Mix_l2_coefficient_ok h r (o : L1L2MixPenalty.t T) :
  h !! r = Some (Heap.PyMix o) ->
  Heap.Mix_l2_coefficient r h = Ok (L1L2MixPenalty.l2_coefficient o, h).
Proof. intros Hr. unfold Heap.Mix_l2_coefficient. rewrite Hr. reflexivity. Qed.
End Frame.

Section MethodsOnStore.
Context {T : Type} `{Dtype T}.
Implicit Types (h : gmap positive (Heap.pyobj T)) (self parameter : positive).

Lemma L1Penalty_call_ok h self parameter (o : L1Penalty.t T) (A : ndarray T) :
  h !! self = Some (Heap.PyL1 o) -> h !! parameter = Some (Heap.PyArray A) ->
  Heap.returns (Heap.L1Penalty_call self parameter) h (L1Penalty.__call__ o A).
Proof.
  intros Hs Hp.
  destruct (h_elementwise_ok absolute h parameter A Hp)
    as (t & h1 & Ht & Hpres & _ & Hlook).
  exists h1. split; [|exact Hpres].
  unfold Heap.L1Penalty_call, Heap.h_abs.
  rewrite (bind_ok _ _ _ _ _ (L1_coefficient_ok _ _ _ Hs)).
  rewrite (bind_ok _ _ _ _ _ Ht).
  rewrite (bind_ok _ _ _ _ _ (h_sum_ok _ _ _ Hlook)).
  reflexivity.
Qed.

Lemma L1Penalty_grad_ok h self parameter (o : L1Penalty.t T) (A : ndarray T) :
  h !! self = Some (Heap.PyL1 o) -> h !! parameter = Some (Heap.PyArray A) ->
  Heap.returns_new (Heap.L1Penalty_grad self parameter) h (L1Penalty.grad o A).
Proof.
  intros Hs Hp.
  destruct (h_elementwise_ok sign h parameter A Hp)
    as (t & h1 & Ht & Hpres1 & Hfresh1 & Hlook1).
  destruct (h_elementwise_ok (mul (L1Penalty.coefficient o)) h1 t _ Hlook1)
    as (g & h2 & Hg & Hpres2 & Hfresh2 & Hlook2).
  exists g, h2. split; [|split; [|split]].
  - unfold Heap.L1Penalty_grad, Heap.h_sign, Heap.h_scalar_mul.
    rewrite (bind_ok _ _ _ _ _ (L1_coefficient_ok _ _ _ Hs)).
    rewrite (bind_ok _ _ _ _ _ Ht). exact Hg.
  - eapply preserved_trans; eassumption.
  - destruct (h !! g) as [og|] eqn:Eg; [|reflexivity].
    apply Hpres1 in Eg. congruence.
  - exact Hlook2.
Qed.

Lemma L2Penalty_call_ok h self parameter (o : L2Penalty.t T) (A : ndarray T) :
  h !! self = Some (Heap.PyL2 o) -> h !! parameter = Some (Heap.PyArray A) ->
  Heap.returns (Heap.L2Penalty_call self parameter) h (L2Penalty.__call__ o A).
Proof.
  intros Hs Hp.
  destruct (h_elementwise_ok square h parameter A Hp)
    as (t & h1 & Ht & Hpres & _ & Hlook).
  exists h1. split; [|exact Hpres].
  unfold Heap.L2Penalty_call, Heap.h_square.
  rewrite (bind_ok _ _ _ _ _ (L2_coefficient_ok _ _ _ Hs)).
  rewrite (bind_ok _ _ _ _ _ Ht).
  rewrite (bind_ok _ _ _ _ _ (h_sum_ok _ _ _ Hlook)).
  reflexivity.
Qed.

Lemma L2Penalty_grad_ok h self parameter (o : L2Penalty.t T) (A : ndarray T) :
  h !! self = Some (Heap.PyL2 o) -> h !! parameter = Some (Heap.PyArray A) ->
  Heap.returns_new (Heap.L2Penalty_grad self parameter) h (L2Penalty.grad o A).
Proof.
  intros Hs Hp.
  destruct (h_elementwise_ok (mul (L2Penalty.coefficient o)) h parameter A Hp)
    as (g & h1 & Hg & Hpres & Hfresh & Hlook).
  exists g, h1. split; [|split; [|split]]; try assumption.
  unfold Heap.L2Penalty_grad, Heap.h_scalar_mul.
  rewrite (bind_ok _ _ _ _ _ (L2_coefficient_ok _ _ _ Hs)). exact Hg.
Qed.

Lemma L1L2MixPenalty_call_ok h self parameter (o : L1L2MixPenalty.t T)
    (A : ndarray T) :
  h !! self = Some (Heap.PyMix o) -> h !! parameter = Some (Heap.PyArray A) ->
  Heap.returns (Heap.L1L2MixPenalty_call self parameter) h
    (L1L2MixPenalty.__call__ o A).
Proof.
  intros Hs Hp.
  destruct (h_elementwise_ok absolute h parameter A Hp)
    as (t1 & h1 & Ht1 & Hpres1 & _ & Hlook1).
  pose proof (Hpres1 _ _ Hs) as Hs1. pose proof (Hpres1 _ _ Hp) as Hp1.
  destruct (h_elementwise_ok square h1 parameter A Hp1)
    as (t2 & h2 & Ht2 & Hpres2 & _ & Hlook2).
  exists h2. split; [|eapply preserved_trans; eassumption].
  unfold Heap.L1L2MixPenalty_call, Heap.h_abs, Heap.h_square.
  rewrite (bind_ok _ _ _ _ _ (Mix_l1_coefficient_ok _ _ _ Hs)).
  rewrite (bind_ok _ _ _ _ _ Ht1).
  rewrite (bind_ok _ _ _ _ _ (h_sum_ok _ _ _ Hlook1)). cbv zeta.
  rewrite (bind_ok _ _ _ _ _ (Mix_l2_coefficient_ok _ _ _ Hs1)).
  rewrite (bind_ok _ _ _ _ _ Ht2).
  rewrite (bind_ok _ _ _ _ _ (h_sum_ok _ _ _ Hlook2)).
  reflexivity.
Qed.

Lemma L1L2MixPenalty_grad_ok h self parameter (o : L1L2MixPenalty.t T)
    (A : ndarray T) :
  h !! self = Some (Heap.PyMix o) -> h !! parameter = Some (Heap.PyArray A) ->
  exists g, L1L2MixPenalty.grad o A = Ok g /\
    Heap.returns_new (Heap.L1L2MixPenalty_grad self parameter) h g.
Proof.
  intros Hs Hp. eexists. split; [apply Mix_grad_ok|].
  destruct (h_elementwise_ok sign h parameter A Hp)
    as (t & h1 & Ht & Hpres1 & _ & Hlook1).
  destruct (h_elementwise_ok (mul (L1L2MixPenalty.l1_coefficient o)) h1 t _ Hlook1)
    as (g1 & h2 & Hg1 & Hpres2 & _ & Hlook2).
  pose proof (preserved_trans _ _ _ Hpres1 Hpres2) as Hpres12.
  pose proof (Hpres12 _ _ Hs) as Hs2. pose proof (Hpres12 _ _ Hp) as Hp2.
  destruct (h_elementwise_ok (mul (L1L2MixPenalty.l2_coefficient o)) h2
              parameter A Hp2)
    as (g2 & h3 & Hg2 & Hpres3 & _ & Hlook3).
  pose proof (Hpres3 _ _ Hlook2) as Hlook2'.
  destruct (h_add_ok h3 g1 g2 _ _ _ Hlook2' Hlook3 (Mix_grad_ok o A))
    as (g & h4 & Hg & Hpres4 & Hfresh4 & Hlook4).
  pose proof (preserved_trans _ _ _ Hpres12 Hpres3) as Hpres13.
  exists g, h4. split; [|split; [|split]].
  - unfold Heap.L1L2MixPenalty_grad, Heap.h_sign, Heap.h_scalar_mul.
    rewrite (bind_ok _ _ _ _ _ (Mix_l1_coefficient_ok _ _ _ Hs)).
    rewrite (bind_ok _ _ _ _ _ Ht).
    rewrite (bind_ok _ _ _ _ _ Hg1).
    rewrite (bind_ok _ _ _ _ _ (Mix_l2_coefficient_ok _ _ _ Hs2)).
    rewrite (bind_ok _ _ _ _ _ Hg2).
    exact Hg.
  - eapply preserved_trans; eassumption.
  - destruct (h !! g) as [og|] eqn:Eg; [|reflexivity].
    apply Hpres13 in Eg. congruence.
  - exact Hlook4.
Qed.

(** C9.  In every store holding the array [A] at [parameter] and a penalty
    object at [self], each of the six methods returns normally; its result
    is the function of the object's coefficients and of [A] given in the
    first part, whatever else the store holds; and every object of the
    store, the array and the penalty object among them, is still there with
    the same contents afterwards.  A gradient is returned at an address
    that was not in use before the call. *)
Theorem methods_preserve_store h self parameter (A : ndarray T) :
  h !! parameter = Some (Heap.PyArray A) ->
  (forall o, h !! self = Some (Heap.PyL1 o) ->
     Heap.returns (Heap.L1Penalty_call self parameter) h
       (L1Penalty.__call__ o A) /\
     Heap.returns_new (Heap.L1Penalty_grad self parameter) h
       (L1Penalty.grad o A)) /\
  (forall o, h !! self = Some (Heap.PyL2 o) ->
     Heap.returns (Heap.L2Penalty_call self parameter) h
       (L2Penalty.__call__ o A) /\
     Heap.returns_new (Heap.L2Penalty_grad self parameter) h
       (L2Penalty.grad o A)) /\
  (forall o, h !! self = Some (Heap.PyMix o) ->
     Heap.returns (Heap.L1L2MixPenalty_call self parameter) h
       (L1L2MixPenalty.__call__ o A) /\
     exists g, L1L2MixPenalty.grad o A = Ok g /\
       Heap.returns_new (Heap.L1L2MixPenalty_grad self parameter) h g).
Proof.
  intros Hp. split; [|split]; intros o Hs; split.
  - apply L1Penalty_call_ok; assumption.
  - apply L1Penalty_grad_ok; assumption.
  - apply L2Penalty_call_ok; assumption.
  - apply L2Penalty_grad_ok; assumption.
  - apply L1L2MixPenalty_call_ok; assumption.
  - apply L1L2MixPenalty_grad_ok; assumption.
Qed.
End MethodsOnStore.

Lemma methods_preserve_store_witness :
  example_store !! 4%positive = Some (Heap.PyArray example_array) /\
  Heap.returns (Heap.L1Penalty_call 1 4) example_store
    (L1Penalty.__call__ (L1Penalty.Build 0.5%float) example_array) /\
  Heap.returns_new (Heap.L1Penalty_grad 1 4) example_store
    (L1Penalty.grad (L1Penalty.Build 0.5%float) example_array).
Proof.
  split; [reflexivity|].
  apply (proj1 (methods_preserve_store example_store 1%positive 4%positive
                  example_array eq_refl)).
  reflexivity.
Defined.

(** The store-level methods evaluate: the value and the store after a call
    of the mix on the example store. *)
Example L1L2MixPenalty_call_runs :
  exists h',
    Heap.L1L2MixPenalty_call 3 4 example_store = Ok (5.75%float, h') /\
    h' !! 4%positive = Some (Heap.PyArray example_array) /\
    h' !! 3%positive
    = Some (Heap.PyMix (L1L2MixPenalty.Build 0.5%float 0.5%float)).
Proof. eexists. split; [vm_compute; reflexivity|]. split; reflexivity. Qed.

(** * Descriptions *)

Section StringFacts.
Local Open Scope string_scope.

Lemma append_cancel_l (p s t : string) : p ++ s = p ++ t -> s = t.
Proof.
  induction p as [|a p IH]; simpl; [trivial|].
  intros E. injection E as E. apply IH, E.
Qed.

Lemma length_append (s t : string) :
  String.length (s ++ t) = (String.length s + String.length t)%nat.
Proof. induction s as [|a s IH]; simpl; [reflexivity|]. rewrite IH. reflexivity. Qed.

Lemma append_cancel_r (s t u : string) : s ++ u = t ++ u -> s = t.
Proof.
  revert t. induction s as [|a s IH]; intros [|b t] E.
  - reflexivity.
  - apply (f_equal String.length) in E. rewrite !length_append in E.
    simpl in E. lia.
  - apply (f_equal String.length) in E. rewrite !length_append in E.
    simpl in E. lia.
  - injection E as -> E. f_equal. apply IH, E.
Qed.

(** Two texts without a comma, each followed by a comma, end at the same
    place. *)
Lemma split_at_comma (s t u v : string) :
  Repr.has_comma s = false -> Repr.has_comma t = false ->
  s ++ String "," u = t ++ String "," v -> s = t /\ u = v.
Proof.
  revert t. induction s as [|a s IH]; intros [|b t] Hs Ht E; simpl in *.
  - injection E as E. split; [reflexivity | exact E].
  - injection E as <- _. simpl in Ht. discriminate.
  - injection E as -> _. simpl in Hs. discriminate.
  - injection E as -> E.
    apply orb_false_iff in Hs as [_ Hs]. apply orb_false_iff in Ht as [_ Ht].
    destruct (IH t Hs Ht E) as [-> ->]. split; reflexivity.
Qed.

Lemma str_int_inj (x y : Z) : Repr.str_int x = Repr.str_int y -> x = y.
Proof.
  unfold Repr.str_int. intros E.
  apply (f_equal NilEmpty.int_of_string) in E.
  rewrite !NilEmpty.isi in E. injection E as E.
  apply (f_equal Z.of_int) in E. rewrite !DecimalZ.of_to in E. exact E.
Qed.
End StringFacts.

Section Descriptions.
Context {T : Type} (str : T -> string).

(** X1.  The description names the class: whatever the coefficients and
    however they are printed, the descriptions of an [L1Penalty], an
    [L2Penalty] and an [L1L2MixPenalty] are three different texts. *)
Theorem repr_names_the_class (p1 : L1Penalty.t T) (p2 : L2Penalty.t T)
    (m : L1L2MixPenalty.t T) :
  Repr.L1Penalty_repr str p1 <> Repr.L2Penalty_repr str p2 /\
  Repr.L1Penalty_repr str p1 <> Repr.L1L2MixPenalty_repr str m /\
  Repr.L2Penalty_repr str p2 <> Repr.L1L2MixPenalty_repr str m.
Proof.
  unfold Repr.L1Penalty_repr, Repr.L2Penalty_repr, Repr.L1L2MixPenalty_repr.
  repeat split; simpl; intros E; discriminate E.
Qed.

(** X2.  When printing is one-to-one on coefficients, the description of a
    single-term penalty determines the object: two [L1Penalty] (or two
    [L2Penalty]) objects have the same description exactly when they hold
    the same coefficient. *)
Theorem repr_determines_coefficient (p q : L1Penalty.t T)
    (p' q' : L2Penalty.t T) :
  (forall x y : T, str x = str y -> x = y) ->
  (Repr.L1Penalty_repr str p = Repr.L1Penalty_repr str q <-> p = q) /\
  (Repr.L2Penalty_repr str p' = Repr.L2Penalty_repr str q' <-> p' = q').
Proof.
  intros Hinj. split; (split; [|intros ->; reflexivity]).
  - destruct p as [c], q as [d]. unfold Repr.L1Penalty_repr.
    intros E. apply (append_cancel_l "L1Penalty(") in E.
    apply append_cancel_r, Hinj in E. simpl in E. rewrite E. reflexivity.
  - destruct p' as [c], q' as [d]. unfold Repr.L2Penalty_repr.
    intros E. apply (append_cancel_l "L2Penalty(") in E.
    apply append_cancel_r, Hinj in E. simpl in E. rewrite E. reflexivity.
Qed.

(** X3.  When printing is one-to-one and the printed first coefficients
    contain no comma, the description of a mix determines both of its
    coefficients. *)
Theorem Mix_repr_determines_coefficients (m n : L1L2MixPenalty.t T) :
  (forall x y : T, str x = str y -> x = y) ->
  Repr.has_comma (str (L1L2MixPenalty.l1_coefficient m)) = false ->
  Repr.has_comma (str (L1L2MixPenalty.l1_coefficient n)) = false ->
  (Repr.L1L2MixPenalty_repr str m = Repr.L1L2MixPenalty_repr str n <-> m = n).
Proof.
  intros Hinj Hm Hn. split; [|intros ->; reflexivity].
  destruct m as [c1 c2], n as [d1 d2]. simpl in Hm, Hn.
  unfold Repr.L1L2MixPenalty_repr. simpl L1L2MixPenalty.l1_coefficient.
  simpl L1L2MixPenalty.l2_coefficient. intros E.
  apply (append_cancel_l "L1L2MixPenalty(l1_coefficient=") in E.
  change (", l2_coefficient=" ++ str c2 ++ ")")%string
    with (String "," (" l2_coefficient=" ++ str c2 ++ ")"))%string in E.
  change (", l2_coefficient=" ++ str d2 ++ ")")%string
    with (String "," (" l2_coefficient=" ++ str d2 ++ ")"))%string in E.
  apply (split_at_comma _ _ _ _ Hm Hn) in E as [E1 E2].
  apply (append_cancel_l " l2_coefficient=") in E2.
  apply append_cancel_r in E2.
  apply Hinj in E1. apply Hinj in E2. subst. reflexivity.
Qed.
End Descriptions.

Lemma repr_determines_coefficient_witness :
  (forall x y : Z, Repr.str_int x = Repr.str_int y -> x = y) /\
  (Repr.L1Penalty_repr Repr.str_int (L1Penalty.Build 3%Z)
   = Repr.L1Penalty_repr Repr.str_int (L1Penalty.Build 5%Z)
   <-> L1Penalty.Build 3%Z = L1Penalty.Build 5%Z) /\
  (Repr.L2Penalty_repr Repr.str_int (L2Penalty.Build 3%Z)
   = Repr.L2Penalty_repr Repr.str_int (L2Penalty.Build 3%Z)
   <-> L2Penalty.Build 3%Z = L2Penalty.Build 3%Z).
Proof.
  split; [exact str_int_inj|].
  apply (repr_determines_coefficient Repr.str_int
           (L1Penalty.Build 3%Z) (L1Penalty.Build 5%Z)
           (L2Penalty.Build 3%Z) (L2Penalty.Build 3%Z) str_int_inj).
Defined.

Lemma Mix_repr_determines_coefficients_witness :
  (forall x y : Z, Repr.str_int x = Repr.str_int y -> x = y) /\
  Repr.has_comma (Repr.str_int 1) = false /\
  Repr.has_comma (Repr.str_int (-20)) = false /\
  (Repr.L1L2MixPenalty_repr Repr.str_int (L1L2MixPenalty.Build 1%Z 20%Z)
   = Repr.L1L2MixPenalty_repr Repr.str_int (L1L2MixPenalty.Build (-20)%Z 1%Z)
   <-> L1L2MixPenalty.Build 1%Z 20%Z = L1L2MixPenalty.Build (-20)%Z 1%Z).
Proof.
  split; [exact str_int_inj|]. split; [reflexivity|]. split; [reflexivity|].
  apply (Mix_repr_determines_coefficients Repr.str_int
           (L1L2MixPenalty.Build 1%Z 20%Z) (L1L2MixPenalty.Build (-20)%Z 1%Z)
           str_int_inj); reflexivity.
Defined.

(** The descriptions evaluate. *)
Example repr_runs :
  Repr.L1Penalty_repr Repr.str_int (L1Penalty.Build 3%Z) = "L1Penalty(3)"%string /\
  Repr.L1L2MixPenalty_repr Repr.str_int (L1L2MixPenalty.Build 1%Z (-20)%Z)
  = "L1L2MixPenalty(l1_coefficient=1, l2_coefficient=-20)"%string.
Proof. split; reflexivity. Qed.

(** * Values and gradients together *)

Section BufferFacts.
Local Open Scope R_scope.

Lemma zip_plus_cons (x y : R) (u v : list R) :
  zip_with Rplus (x :: u) (y :: v) = (x + y) :: zip_with Rplus u v.
Proof. reflexivity. Qed.

Lemma dot_cons (x y : R) (u v : list R) : dot (x :: u) (y :: v) = x * y + dot u v.
Proof. reflexivity. Qed.

Lemma dot_scale (c : R) (u v : list R) : dot (Rmult c <$> u) v = c * dot u v.
Proof.
  revert v. induction u as [|x u IH]; intros [|y v]; simpl;
    try (unfold dot; simpl; lra).
  rewrite !dot_cons, IH. lra.
Qed.

Lemma dot_plus (u u' v : list R) :
  length u = length u' ->
  dot (zip_with Rplus u u') v = dot u v + dot u' v.
Proof.
  revert u' v. induction u as [|x u IH]; intros [|x' u'] v Hlen;
    simpl in Hlen; try discriminate.
  - unfold dot. simpl. lra.
  - destruct v as [|y v]; [unfold dot; simpl; lra|].
    rewrite zip_plus_cons, !dot_cons, IH by congruence. lra.
Qed.

Lemma dot_self (u : list R) : dot u u = Rsum ((fun x => x * x) <$> u).
Proof.
  induction u as [|x u IH]; [reflexivity|].
  rewrite dot_cons, fmap_cons, Rsum_cons, IH. reflexivity.
Qed.

Lemma Rsign_mult_self (x : R) : Rsign x * x = Rabs x.
Proof.
  destruct (Rtotal_order x 0) as [Hx | [Hx | Hx]].
  - rewrite Rsign_neg, Rabs_left by assumption. lra.
  - subst x. rewrite Rsign_zero, Rabs_R0. lra.
  - rewrite Rsign_pos, Rabs_right by lra. lra.
Qed.

Lemma dot_sign_self (u : list R) : dot (Rsign <$> u) u = Rsum (Rabs <$> u).
Proof.
  induction u as [|x u IH]; [reflexivity|].
  rewrite !fmap_cons, dot_cons, Rsum_cons, IH, Rsign_mult_self. reflexivity.
Qed.

Lemma Rsign_bound (x d : R) : Rabs x + Rsign x * d <= Rabs (x + d).
Proof.
  rewrite <- Rsign_mult_self.
  destruct (Rtotal_order x 0) as [Hx | [Hx | Hx]].
  - rewrite Rsign_neg by assumption.
    pose proof (Rabs_pos (x + d)). pose proof (Rle_abs (- (x + d))) as Hle.
    rewrite Rabs_Ropp in Hle. lra.
  - subst x. rewrite Rsign_zero. pose proof (Rabs_pos (0 + d)). lra.
  - rewrite Rsign_pos by assumption. pose proof (Rle_abs (x + d)). lra.
Qed.

Lemma Rsum_abs_subgradient (u d : list R) :
  length u = length d ->
  Rsum (Rabs <$> u) + dot (Rsign <$> u) d <= Rsum (Rabs <$> zip_with Rplus u d).
Proof.
  revert d. induction u as [|x u IH]; intros [|y d] Hlen;
    simpl in Hlen; try discriminate.
  - unfold dot. simpl. lra.
  - rewrite zip_plus_cons, !fmap_cons, dot_cons, !Rsum_cons.
    pose proof (Rsign_bound x y). specialize (IH d ltac:(congruence)). lra.
Qed.

Lemma Rsum_square_expansion (u d : list R) :
  length u = length d ->
  Rsum ((fun x => x * x) <$> zip_with Rplus u d)
  = Rsum ((fun x => x * x) <$> u) + 2 * dot u d
    + Rsum ((fun x => x * x) <$> d).
Proof.
  revert d. induction u as [|x u IH]; intros [|y d] Hlen;
    simpl in Hlen; try discriminate.
  - unfold dot. simpl. lra.
  - rewrite zip_plus_cons, !fmap_cons, dot_cons, !Rsum_cons, IH by congruence. lra.
Qed.

Lemma Rsum_abs_triangle (u d : list R) :
  Rsum (Rabs <$> zip_with Rplus u d) <= Rsum (Rabs <$> u) + Rsum (Rabs <$> d).
Proof.
  revert d. induction u as [|x u IH]; intros d.
  - pose proof (Rsum_abs_nonneg d).
    change (0 <= 0 + Rsum (Rabs <$> d)). lra.
  - destruct d as [|y d].
    + pose proof (Rsum_abs_nonneg (x :: u)).
      change (0 <= Rsum (Rabs <$> x :: u) + 0). lra.
    + rewrite zip_plus_cons, !fmap_cons, !Rsum_cons.
      pose proof (Rabs_triang x y). specialize (IH d). lra.
Qed.

Lemma Rsum_abs_scale (k : R) (u : list R) :
  Rsum (Rabs <$> (Rmult k <$> u)) = Rabs k * Rsum (Rabs <$> u).
Proof.
  induction u as [|x u IH]; [simpl; unfold Rsum; simpl; lra|].
  rewrite !fmap_cons, !Rsum_cons, IH, Rabs_mult. lra.
Qed.

Lemma Rsum_square_scale (k : R) (u : list R) :
  Rsum ((fun x => x * x) <$> (Rmult k <$> u))
  = k * k * Rsum ((fun x => x * x) <$> u).
Proof.
  induction u as [|x u IH]; [simpl; unfold Rsum; simpl; lra|].
  rewrite !fmap_cons, !Rsum_cons, IH. lra.
Qed.

Lemma Rsum_Permutation (u v : list R) : u ≡ₚ v -> Rsum u = Rsum v.
Proof.
  induction 1 as [|x u v _ IH|x y u|u v w _ IH1 _ IH2].
  - reflexivity.
  - rewrite !Rsum_cons, IH. reflexivity.
  - rewrite !Rsum_cons. lra.
  - rewrite IH1. exact IH2.
Qed.

Lemma Rsign_scale_pos (k x : R) : 0 < k -> Rsign (k * x) = Rsign x.
Proof.
  intros Hk. destruct (Rtotal_order x 0) as [Hx | [Hx | Hx]].
  - rewrite !Rsign_neg; [reflexivity | assumption | nra].
  - subst x. rewrite Rmult_0_r. reflexivity.
  - rewrite !Rsign_pos; [reflexivity | assumption | nra].
Qed.

(** What a successful array sum returns. *)
Lemma np_add_Ok (A D S : ndarray R) :
  np_add A D = Ok S ->
  shape A = shape D /\ S = NDArray (shape A) (zip_with Rplus (data A) (data D)).
Proof.
  unfold np_add. destruct (decide (shape A = shape D)) as [E|]; [|discriminate].
  intros [= <-]. split; [exact E | reflexivity].
Qed.

Lemma well_shaped_same_length {T : Type} (A D : ndarray T) :
  well_shaped A -> well_shaped D -> shape A = shape D ->
  length (data A) = length (data D).
Proof. unfold well_shaped. intros HA HD E. rewrite HA, HD, E. reflexivity. Qed.

Lemma Mix_call_unfold (c1 c2 : R) (A : ndarray R) :
  L1L2MixPenalty.__call__ (L1L2MixPenalty.Build c1 c2) A
  = c1 * Rsum (Rabs <$> data A)
    + 0.5 * c2 * Rsum ((fun x => x * x) <$> data A).
Proof.
  change (L1L2MixPenalty.__call__ (L1L2MixPenalty.Build c1 c2) A)
    with (L1Penalty.__call__ (L1Penalty.Build c1) A
          + L2Penalty.__call__ (L2Penalty.Build c2) A).
  rewrite L1_call_unfold, L2_call_unfold. reflexivity.
Qed.
End BufferFacts.

Section GradientProperties.
Local Open Scope R_scope.

(** X4.  [L2Penalty.grad] is the gradient of [L2Penalty.__call__]: for
    well-shaped arrays [A] and [D] of one shape, the value at [A + D] is
    the value at [A], plus the inner product of the gradient at [A] with
    [D], plus the value at [D]. *)
Theorem L2Penalty_expansion (p : L2Penalty.t R) (A D S : ndarray R) :
  well_shaped A -> well_shaped D -> np_add A D = Ok S ->
  L2Penalty.__call__ p S
  = L2Penalty.__call__ p A + dot (data (L2Penalty.grad p A)) (data D)
    + L2Penalty.__call__ p D.
Proof.
  intros HA HD Hadd. destruct p as [c].
  destruct (np_add_Ok _ _ _ Hadd) as [Hshape ->].
  pose proof (well_shaped_same_length A D HA HD Hshape) as Hlen.
  rewrite !L2_call_unfold.
  unfold L2Penalty.grad, scalar_mul, elementwise. simpl.
  rewrite dot_scale, Rsum_square_expansion by exact Hlen. lra.
Qed.

(** X5.  [L1Penalty.grad] is a subgradient of [L1Penalty.__call__]: for a
    positive coefficient and well-shaped arrays [A] and [D] of one shape,
    the value at [A + D] is at least the value at [A] plus the inner
    product of the gradient at [A] with [D]. *)
Theorem L1Penalty_subgradient (p : L1Penalty.t R) (A D S : ndarray R) :
  0 < L1Penalty.coefficient p ->
  well_shaped A -> well_shaped D -> np_add A D = Ok S ->
  L1Penalty.__call__ p A + dot (data (L1Penalty.grad p A)) (data D)
  <= L1Penalty.__call__ p S.
Proof.
  intros Hc HA HD Hadd. destruct p as [c]. simpl in Hc.
  destruct (np_add_Ok _ _ _ Hadd) as [Hshape ->].
  pose proof (well_shaped_same_length A D HA HD Hshape) as Hlen.
  rewrite !L1_call_unfold.
  unfold L1Penalty.grad, scalar_mul, np_sign, elementwise. simpl.
  rewrite dot_scale.
  pose proof (Rsum_abs_subgradient (data A) (data D) Hlen). nra.
Qed.

(** X6.  The same first-order bound for the mix, when neither coefficient
    is negative: the value at [A + D] is at least the value at [A] plus the
    inner product of [L1L2MixPenalty.grad] at [A] with [D]. *)
Theorem Mix_subgradient (m : L1L2MixPenalty.t R)
    (A D S g : ndarray R) :
  0 <= L1L2MixPenalty.l1_coefficient m ->
  0 <= L1L2MixPenalty.l2_coefficient m ->
  well_shaped A -> well_shaped D -> np_add A D = Ok S ->
  L1L2MixPenalty.grad m A = Ok g ->
  L1L2MixPenalty.__call__ m A + dot (data g) (data D)
  <= L1L2MixPenalty.__call__ m S.
Proof.
  intros H1 H2 HA HD Hadd Hg. destruct m as [c1 c2]. simpl in H1, H2.
  destruct (np_add_Ok _ _ _ Hadd) as [Hshape ->].
  pose proof (well_shaped_same_length A D HA HD Hshape) as Hlen.
  rewrite Mix_grad_ok in Hg. injection Hg as <-.
  rewrite !Mix_call_unfold. simpl.
  rewrite dot_plus by (rewrite !length_fmap; reflexivity).
  rewrite !dot_scale, Rsum_square_expansion by exact Hlen.
  pose proof (Rsum_abs_subgradient (data A) (data D) Hlen).
  pose proof (Rsum_square_nonneg (data D)). nra.
Qed.

(** X7.  Gradient against parameter: the inner product of the [L1Penalty]
    gradient at [A] with [A] is the [L1Penalty] value at [A], and that of
    the [L2Penalty] gradient with [A] is twice the [L2Penalty] value. *)
Theorem grad_dot_parameter (p : L1Penalty.t R) (q : L2Penalty.t R)
    (A : ndarray R) :
  dot (data (L1Penalty.grad p A)) (data A) = L1Penalty.__call__ p A /\
  dot (data (L2Penalty.grad q A)) (data A) = 2 * L2Penalty.__call__ q A.
Proof.
  destruct p as [c], q as [d]. rewrite L1_call_unfold, L2_call_unfold.
  unfold L1Penalty.grad, L2Penalty.grad, scalar_mul, np_sign, elementwise.
  simpl. rewrite !dot_scale, dot_sign_self, dot_self. split; lra.
Qed.

(** X8.  Rescaling the parameter: the [L1Penalty] value of [k * A] is
    [|k|] times the value of [A], and the [L2Penalty] value of [k * A] is
    [k^2] times the value of [A]. *)
Theorem value_of_scaled_parameter (p : L1Penalty.t R) (q : L2Penalty.t R)
    (k : R) (A : ndarray R) :
  L1Penalty.__call__ p (scalar_mul k A) = Rabs k * L1Penalty.__call__ p A /\
  L2Penalty.__call__ q (scalar_mul k A) = k ^ 2 * L2Penalty.__call__ q A.
Proof.
  destruct p as [c], q as [d]. rewrite !L1_call_unfold, !L2_call_unfold.
  unfold scalar_mul, elementwise. simpl data.
  change (@mul R R_Dtype k) with (Rmult k).
  rewrite Rsum_abs_scale, Rsum_square_scale. split; simpl; lra.
Qed.

(** X9.  The [L1Penalty] gradient sees only signs: rescaling the parameter
    by a positive factor leaves the gradient unchanged. *)
Theorem L1Penalty_grad_sign_only (p : L1Penalty.t R) (k : R) (A : ndarray R) :
  0 < k -> L1Penalty.grad p (scalar_mul k A) = L1Penalty.grad p A.
Proof.
  intros Hk. unfold L1Penalty.grad, scalar_mul, np_sign, elementwise. simpl.
  f_equal. rewrite <- !list_fmap_compose.
  apply list_fmap_ext. intros _ x _. simpl.
  rewrite Rsign_scale_pos by exact Hk. reflexivity.
Qed.

(** X10.  Triangle inequality: for a positive coefficient and arrays [A]
    and [D] of one shape, the [L1Penalty] value of the elementwise sum
    [A + D] is at most the value of [A] plus the value of [D]. *)
Theorem L1Penalty_triangle (p : L1Penalty.t R) (A D S : ndarray R) :
  0 < L1Penalty.coefficient p -> shape A = shape D -> np_add A D = Ok S ->
  L1Penalty.__call__ p S <= L1Penalty.__call__ p A + L1Penalty.__call__ p D.
Proof.
  intros Hc _ Hadd. destruct p as [c]. simpl in Hc.
  destruct (np_add_Ok _ _ _ Hadd) as [_ ->].
  rewrite !L1_call_unfold. simpl.
  pose proof (Rsum_abs_triangle (data A) (data D)). nra.
Qed.

(** X11.  The three values depend on the elements only, not on their
    order or on the shape: arrays whose buffers are permutations of each
    other (a transpose, a reshape) get the same value. *)
Theorem value_permutation_invariant (p : L1Penalty.t R) (q : L2Penalty.t R)
    (m : L1L2MixPenalty.t R) (A B : ndarray R) :
  data A ≡ₚ data B ->
  L1Penalty.__call__ p A = L1Penalty.__call__ p B /\
  L2Penalty.__call__ q A = L2Penalty.__call__ q B /\
  L1L2MixPenalty.__call__ m A = L1L2MixPenalty.__call__ m B.
Proof.
  intros Hperm. destruct p as [c], q as [d], m as [c1 c2].
  rewrite !L1_call_unfold, !L2_call_unfold, !Mix_call_unfold.
  rewrite (Rsum_Permutation (Rabs <$> data A) (Rabs <$> data B))
    by (apply fmap_Permutation, Hperm).
  rewrite (Rsum_Permutation ((fun x => x * x) <$> data A)
             ((fun x => x * x) <$> data B))
    by (apply fmap_Permutation, Hperm).
  repeat split.
Qed.
End GradientProperties.

(** * The mix without validation *)

Section UnvalidatedMix.
Local Open Scope R_scope.

(** X12.  With non-negative coefficients that are not both zero, the mix
    behaves like a penalty: its value is non-negative, and it is zero
    exactly when every element of the array is zero. *)
Theorem Mix_value_nonneg (m : L1L2MixPenalty.t R) (A : ndarray R) :
  0 <= L1L2MixPenalty.l1_coefficient m ->
  0 <= L1L2MixPenalty.l2_coefficient m ->
  0 < L1L2MixPenalty.l1_coefficient m + L1L2MixPenalty.l2_coefficient m ->
  0 <= L1L2MixPenalty.__call__ m A /\
  (L1L2MixPenalty.__call__ m A = 0 <-> Forall (fun x => x = 0) (data A)).
Proof.
  destruct m as [c1 c2]. intros H1 H2 H12. simpl in H1, H2, H12.
  rewrite Mix_call_unfold.
  pose proof (Rsum_abs_nonneg (data A)) as Ha.
  pose proof (Rsum_square_nonneg (data A)) as Hs.
  assert (Hp1 : 0 <= c1 * Rsum (Rabs <$> data A)) by nra.
  assert (Hp2 : 0 <= 0.5 * c2 * Rsum ((fun x => x * x) <$> data A)) by nra.
  split; [lra|]. split.
  - intros Hz.
    destruct (Rlt_le_dec 0 c1) as [Hc1 | Hc1].
    + apply Rsum_abs_zero. nra.
    + apply Rsum_square_zero. assert (0 < c2) by lra. nra.
  - intros Hall.
    apply Rsum_abs_zero in Hall as Ha0. apply Rsum_square_zero in Hall as Hs0.
    rewrite Ha0, Hs0. lra.
Qed.

(** X13.  Since the constructor accepts them, coefficients may be
    non-positive; when they are, and not both zero, the mix is a reward:
    its value is negative on every array with a non-zero element. *)
Theorem Mix_value_negative (m : L1L2MixPenalty.t R) (A : ndarray R) :
  L1L2MixPenalty.l1_coefficient m <= 0 ->
  L1L2MixPenalty.l2_coefficient m <= 0 ->
  L1L2MixPenalty.l1_coefficient m + L1L2MixPenalty.l2_coefficient m < 0 ->
  ~ Forall (fun x => x = 0) (data A) ->
  L1L2MixPenalty.__call__ m A < 0.
Proof.
  destruct m as [c1 c2]. intros H1 H2 H12 Hnz. simpl in H1, H2, H12.
  rewrite Mix_call_unfold.
  pose proof (Rsum_abs_nonneg (data A)) as Ha.
  pose proof (Rsum_square_nonneg (data A)) as Hs.
  assert (Ha' : 0 < Rsum (Rabs <$> data A)).
  { destruct Ha as [Ha | Ha]; [exact Ha|].
    exfalso. apply Hnz, Rsum_abs_zero. symmetry. exact Ha. }
  assert (Hs' : 0 < Rsum ((fun x => x * x) <$> data A)).
  { destruct Hs as [Hs | Hs]; [exact Hs|].
    exfalso. apply Hnz, Rsum_square_zero. symmetry. exact Hs. }
  destruct (Rlt_le_dec c1 0) as [Hc1 | Hc1].
  - assert (c1 * Rsum (Rabs <$> data A) < 0) by nra.
    assert (0.5 * c2 * Rsum ((fun x => x * x) <$> data A) <= 0) by nra. lra.
  - assert (c1 * Rsum (Rabs <$> data A) <= 0) by nra.
    assert (c2 < 0) by lra.
    assert (0.5 * c2 * Rsum ((fun x => x * x) <$> data A) < 0) by nra. lra.
Qed.

Lemma zip_plus_zero_r (u v : list R) :
  length u = length v ->
  zip_with Rplus u (Rmult 0 <$> v) = u.
Proof.
  revert v. induction u as [|x u IH]; intros [|y v] Hlen;
    simpl in Hlen; try discriminate; [reflexivity|].
  rewrite fmap_cons, zip_plus_cons, IH by congruence. f_equal. lra.
Qed.

Lemma zip_plus_zero_l (u v : list R) :
  length u = length v ->
  zip_with Rplus (Rmult 0 <$> u) v = v.
Proof.
  revert v. induction u as [|x u IH]; intros [|y v] Hlen;
    simpl in Hlen; try discriminate; [reflexivity|].
  rewrite fmap_cons, zip_plus_cons, IH by congruence. f_equal. lra.
Qed.

(** X14.  A mix with one weight set to zero is the other single-term
    penalty: [L1L2MixPenalty(c, 0)] has the value and the gradient of
    [L1Penalty(c)], and [L1L2MixPenalty(0, c)] those of [L2Penalty(c)]. *)
Theorem Mix_with_zero_weight (c : R) (A : ndarray R) :
  L1L2MixPenalty.__call__ (L1L2MixPenalty.Build c 0) A
  = L1Penalty.__call__ (L1Penalty.Build c) A /\
  L1L2MixPenalty.grad (L1L2MixPenalty.Build c 0) A
  = Ok (L1Penalty.grad (L1Penalty.Build c) A) /\
  L1L2MixPenalty.__call__ (L1L2MixPenalty.Build 0 c) A
  = L2Penalty.__call__ (L2Penalty.Build c) A /\
  L1L2MixPenalty.grad (L1L2MixPenalty.Build 0 c) A
  = Ok (L2Penalty.grad (L2Penalty.Build c) A).
Proof.
  rewrite !Mix_call_unfold, L1_call_unfold, L2_call_unfold, !Mix_grad_ok.
  unfold L1Penalty.grad, L2Penalty.grad, scalar_mul, np_sign, elementwise.
  simpl.
  change (@mul R R_Dtype) with Rmult. change (@add R R_Dtype) with Rplus.
  rewrite zip_plus_zero_r by (rewrite !length_fmap; reflexivity).
  rewrite zip_plus_zero_l by (rewrite !length_fmap; reflexivity).
  repeat split; lra.
Qed.

(** X15.  For any coefficients, [L1L2MixPenalty.grad] returns an array of
    the parameter's shape and length whose element is
    [c1 + c2 * x] where the parameter's element [x] is positive,
    [- c1 + c2 * x] where it is negative, and [0] where it is zero. *)
Theorem Mix_grad_by_sign (m : L1L2MixPenalty.t R) (A : ndarray R) :
  exists g, L1L2MixPenalty.grad m A = Ok g /\
    shape g = shape A /\
    length (data g) = length (data A) /\
    forall (i : nat) (x : R), data A !! i = Some x ->
      exists y, data g !! i = Some y /\
        (0 < x -> y = L1L2MixPenalty.l1_coefficient m
                      + L1L2MixPenalty.l2_coefficient m * x) /\
        (x < 0 -> y = - L1L2MixPenalty.l1_coefficient m
                      + L1L2MixPenalty.l2_coefficient m * x) /\
        (x = 0 -> y = 0).
Proof.
  destruct m as [c1 c2]. eexists. split; [apply Mix_grad_ok|]. simpl.
  split; [reflexivity|].
  split; [rewrite length_zip_with, !length_fmap; apply Nat.min_id|].
  intros i x Hx. exists (c1 * Rsign x + c2 * x).
  split; [rewrite lookup_zip_with, !list_lookup_fmap, Hx; reflexivity|].
  split; [|split]; intros Hs.
  - rewrite Rsign_pos by assumption. lra.
  - rewrite Rsign_neg by assumption. lra.
  - subst x. rewrite Rsign_zero. lra.
Qed.
End UnvalidatedMix.

(** * Shapes and references *)

Section Shapes.
Context {T : Type} `{Dtype T}.

(** X16.  At every dtype and for any coefficients, the three gradients
    keep an array well shaped: the returned buffer has as many elements as
    the product of the returned dimensions, and the mix's array sum does
    not raise. *)
Theorem grads_keep_well_shaped (p : L1Penalty.t T) (q : L2Penalty.t T)
    (m : L1L2MixPenalty.t T) (A : ndarray T) :
  well_shaped A ->
  well_shaped (L1Penalty.grad p A) /\
  well_shaped (L2Penalty.grad q A) /\
  exists g, L1L2MixPenalty.grad m A = Ok g /\ well_shaped g.
Proof.
  intros HA. split; [|split].
  - unfold L1Penalty.grad, scalar_mul, np_sign.
    apply elementwise_well_shaped, elementwise_well_shaped, HA.
  - unfold L2Penalty.grad, scalar_mul. apply elementwise_well_shaped, HA.
  - eexists. split; [apply Mix_grad_ok|].
    unfold well_shaped in *. simpl.
    rewrite length_zip_with, !length_fmap, Nat.min_id. exact HA.
Qed.

Implicit Types (h : gmap positive (Heap.pyobj T)) (self parameter : positive).

Lemma returns_new_twice (m : Heap.M T positive) h parameter
    (A a : ndarray T) :
  h !! parameter = Some (Heap.PyArray A) ->
  (forall h', Heap.preserved h h' -> Heap.returns_new m h' a) ->
  exists r1 h1 r2 h2,
    m h = Ok (r1, h1) /\ m h1 = Ok (r2, h2) /\
    r1 <> r2 /\ r1 <> parameter /\ r2 <> parameter /\
    h2 !! r1 = Some (Heap.PyArray a) /\ h2 !! r2 = Some (Heap.PyArray a) /\
    Heap.preserved h h2.
Proof.
  intros Hp Hm.
  destruct (Hm h (preserved_refl h)) as (r1 & h1 & E1 & P1 & F1 & L1).
  destruct (Hm h1 P1) as (r2 & h2 & E2 & P2 & F2 & L2).
  exists r1, h1, r2, h2.
  split; [exact E1|]. split; [exact E2|].
  split; [intros ->; congruence|].
  split; [intros ->; congruence|].
  split; [intros ->; apply P1 in Hp; congruence|].
  split; [apply P2, L1|]. split; [exact L2|].
  eapply preserved_trans; eassumption.
Qed.

(** X17.  Two successive gradient calls on the same object and parameter
    return two different arrays with the same contents, neither of them
    the parameter, and leave every earlier object of the store unchanged:
    results are never shared between calls or with the input. *)
Theorem grad_results_are_separate h self parameter (A : ndarray T) :
  h !! parameter = Some (Heap.PyArray A) ->
  (forall o, h !! self = Some (Heap.PyL1 o) ->
     exists r1 h1 r2 h2,
       Heap.L1Penalty_grad self parameter h = Ok (r1, h1) /\
       Heap.L1Penalty_grad self parameter h1 = Ok (r2, h2) /\
       r1 <> r2 /\ r1 <> parameter /\ r2 <> parameter /\
       h2 !! r1 = Some (Heap.PyArray (L1Penalty.grad o A)) /\
       h2 !! r2 = Some (Heap.PyArray (L1Penalty.grad o A)) /\
       Heap.preserved h h2) /\
  (forall o, h !! self = Some (Heap.PyL2 o) ->
     exists r1 h1 r2 h2,
       Heap.L2Penalty_grad self parameter h = Ok (r1, h1) /\
       Heap.L2Penalty_grad self parameter h1 = Ok (r2, h2) /\
       r1 <> r2 /\ r1 <> parameter /\ r2 <> parameter /\
       h2 !! r1 = Some (Heap.PyArray (L2Penalty.grad o A)) /\
       h2 !! r2 = Some (Heap.PyArray (L2Penalty.grad o A)) /\
       Heap.preserved h h2) /\
  (forall o, h !! self = Some (Heap.PyMix o) ->
     exists g r1 h1 r2 h2,
       L1L2MixPenalty.grad o A = Ok g /\
       Heap.L1L2MixPenalty_grad self parameter h = Ok (r1, h1) /\
       Heap.L1L2MixPenalty_grad self parameter h1 = Ok (r2, h2) /\
       r1 <> r2 /\ r1 <> parameter /\ r2 <> parameter /\
       h2 !! r1 = Some (Heap.PyArray g) /\
       h2 !! r2 = Some (Heap.PyArray g) /\
       Heap.preserved h h2).
Proof.
  intros Hp. split; [|split]; intros o Hs.
  - apply (returns_new_twice _ h parameter A _ Hp). intros h' P.
    apply L1Penalty_grad_ok; [apply P, Hs | apply P, Hp].
  - apply (returns_new_twice _ h parameter A _ Hp). intros h' P.
    apply L2Penalty_grad_ok; [apply P, Hs | apply P, Hp].
  - pose proof (Mix_grad_ok o A) as Hg.
    destruct (L1L2MixPenalty.grad o A) as [g|] eqn:Eg; [|discriminate].
    assert (Hret : forall h', Heap.preserved h h' ->
              Heap.returns_new (Heap.L1L2MixPenalty_grad self parameter) h' g).
    { intros h' P.
      destruct (L1L2MixPenalty_grad_ok h' self parameter o A
                  (P _ _ Hs) (P _ _ Hp)) as (g' & Hg' & Hret).
      rewrite Eg in Hg'. injection Hg' as <-. exact Hret. }
    destruct (returns_new_twice _ h parameter A g Hp Hret)
      as (r1 & h1 & r2 & h2 & Hres).
    exists g, r1, h1, r2, h2. split; [reflexivity | exact Hres].
Qed.
End Shapes.

(** * Instances on the example arrays *)

Section Instances.
Local Open Scope R_scope.

Lemma L2Penalty_expansion_witness :
  well_shaped example_parameter /\ well_shaped example_step /\
  np_add example_parameter example_step = Ok example_sum /\
  L2Penalty.__call__ (L2Penalty.Build 0.5) example_sum
  = L2Penalty.__call__ (L2Penalty.Build 0.5) example_parameter
    + dot (data (L2Penalty.grad (L2Penalty.Build 0.5) example_parameter))
        (data example_step)
    + L2Penalty.__call__ (L2Penalty.Build 0.5) example_step.
Proof.
  split; [reflexivity|]. split; [reflexivity|]. split; [reflexivity|].
  apply (L2Penalty_expansion (L2Penalty.Build 0.5) example_parameter
           example_step example_sum); reflexivity.
Defined.

Lemma L1Penalty_subgradient_witness :
  0 < 0.5 /\
  well_shaped example_parameter /\ well_shaped example_step /\
  np_add example_parameter example_step = Ok example_sum /\
  L1Penalty.__call__ (L1Penalty.Build 0.5) example_parameter
  + dot (data (L1Penalty.grad (L1Penalty.Build 0.5) example_parameter))
      (data example_step)
  <= L1Penalty.__call__ (L1Penalty.Build 0.5) example_sum.
Proof.
  split; [lra|]. split; [reflexivity|]. split; [reflexivity|].
  split; [reflexivity|].
  apply (L1Penalty_subgradient (L1Penalty.Build 0.5) example_parameter
           example_step example_sum); [simpl; lra | reflexivity ..].
Defined.

Lemma Mix_subgradient_witness :
  0 <= 0.5 /\
  well_shaped example_parameter /\ well_shaped example_step /\
  np_add example_parameter example_step = Ok example_sum /\
  L1L2MixPenalty.grad (L1L2MixPenalty.Build 0.5 0.5) example_parameter
  = Ok example_mix_grad /\
  L1L2MixPenalty.__call__ (L1L2MixPenalty.Build 0.5 0.5) example_parameter
  + dot (data example_mix_grad) (data example_step)
  <= L1L2MixPenalty.__call__ (L1L2MixPenalty.Build 0.5 0.5) example_sum.
Proof.
  split; [lra|]. split; [reflexivity|]. split; [reflexivity|].
  split; [reflexivity|]. split; [reflexivity|].
  apply (Mix_subgradient (L1L2MixPenalty.Build 0.5 0.5)
           example_parameter example_step example_sum example_mix_grad);
    [simpl; lra | simpl; lra | reflexivity ..].
Defined.

Lemma L1Penalty_grad_sign_only_witness :
  0 < 2 /\
  L1Penalty.grad (L1Penalty.Build 0.5) (scalar_mul 2 example_parameter)
  = L1Penalty.grad (L1Penalty.Build 0.5) example_parameter.
Proof.
  split; [lra|].
  apply (L1Penalty_grad_sign_only (L1Penalty.Build 0.5) 2 example_parameter).
  lra.
Defined.

Lemma L1Penalty_triangle_witness :
  0 < 0.5 /\
  shape example_parameter = shape example_step /\
  np_add example_parameter example_step = Ok example_sum /\
  L1Penalty.__call__ (L1Penalty.Build 0.5) example_sum
  <= L1Penalty.__call__ (L1Penalty.Build 0.5) example_parameter
     + L1Penalty.__call__ (L1Penalty.Build 0.5) example_step.
Proof.
  split; [lra|]. split; [reflexivity|]. split; [reflexivity|].
  apply (L1Penalty_triangle (L1Penalty.Build 0.5) example_parameter
           example_step example_sum); [simpl; lra | reflexivity ..].
Defined.

Lemma value_permutation_invariant_witness :
  data example_parameter ≡ₚ data example_reordered /\
  L1Penalty.__call__ (L1Penalty.Build 0.5) example_parameter
  = L1Penalty.__call__ (L1Penalty.Build 0.5) example_reordered /\
  L2Penalty.__call__ (L2Penalty.Build 0.5) example_parameter
  = L2Penalty.__call__ (L2Penalty.Build 0.5) example_reordered /\
  L1L2MixPenalty.__call__ (L1L2MixPenalty.Build 0.5 0.5) example_parameter
  = L1L2MixPenalty.__call__ (L1L2MixPenalty.Build 0.5 0.5) example_reordered.
Proof.
  assert (Hperm : data example_parameter ≡ₚ data example_reordered)
    by apply perm_swap.
  split; [exact Hperm|].
  apply (value_permutation_invariant (L1Penalty.Build 0.5)
           (L2Penalty.Build 0.5) (L1L2MixPenalty.Build 0.5 0.5)
           example_parameter example_reordered Hperm).
Defined.

Lemma Mix_value_nonneg_witness :
  0 <= 0.5 /\ 0 <= 0 /\ 0 < 0.5 + 0 /\
  0 <= L1L2MixPenalty.__call__ (L1L2MixPenalty.Build 0.5 0) example_parameter /\
  (L1L2MixPenalty.__call__ (L1L2MixPenalty.Build 0.5 0) example_parameter = 0
   <-> Forall (fun x => x = 0) (data example_parameter)).
Proof.
  split; [lra|]. split; [lra|]. split; [lra|].
  apply (Mix_value_nonneg (L1L2MixPenalty.Build 0.5 0) example_parameter);
    simpl; lra.
Defined.

Lemma Mix_value_negative_witness :
  -1 <= 0 /\ 0 <= 0 /\ -1 + 0 < 0 /\
  ~ Forall (fun x => x = 0) (data example_parameter) /\
  L1L2MixPenalty.__call__ (L1L2MixPenalty.Build (-1) 0) example_parameter < 0.
Proof.
  assert (Hnz : ~ Forall (fun x => x = 0) (data example_parameter)).
  { intros HF. apply Forall_cons in HF as [H2 _]. lra. }
  split; [lra|]. split; [lra|]. split; [lra|]. split; [exact Hnz|].
  apply (Mix_value_negative (L1L2MixPenalty.Build (-1) 0) example_parameter);
    [simpl; lra | simpl; lra | simpl; lra | exact Hnz].
Defined.
End Instances.

Lemma grads_keep_well_shaped_witness :
  well_shaped example_array /\
  well_shaped (L1Penalty.grad (L1Penalty.Build 0.5%float) example_array) /\
  well_shaped (L2Penalty.grad (L2Penalty.Build 0.5%float) example_array) /\
  exists g,
    L1L2MixPenalty.grad (L1L2MixPenalty.Build 0.5%float 0.5%float) example_array
    = Ok g /\ well_shaped g.
Proof.
  split; [reflexivity|].
  apply (grads_keep_well_shaped (L1Penalty.Build 0.5%float)
           (L2Penalty.Build 0.5%float)
           (L1L2MixPenalty.Build 0.5%float 0.5%float) example_array).
  reflexivity.
Defined.

Lemma grad_results_are_separate_witness :
  example_store !! 4%positive = Some (Heap.PyArray example_array) /\
  exists r1 h1 r2 h2,
    Heap.L2Penalty_grad 2 4 example_store = Ok (r1, h1) /\
    Heap.L2Penalty_grad 2 4 h1 = Ok (r2, h2) /\
    r1 <> r2 /\ r1 <> 4%positive /\ r2 <> 4%positive /\
    h2 !! r1
    = Some (Heap.PyArray (L2Penalty.grad (L2Penalty.Build 0.5%float)
                            example_array)) /\
    h2 !! r2
    = Some (Heap.PyArray (L2Penalty.grad (L2Penalty.Build 0.5%float)
                            example_array)) /\
    Heap.preserved example_store h2.
Proof.
  split; [reflexivity|].
  apply (proj1 (proj2 (grad_results_are_separate example_store 2%positive
                         4%positive example_array eq_refl))).
  reflexivity.
Defined.
